(** * nbpy: the NationBuilder API base class ([nb_api.py])

    A shallow embedding of [NationBuilderApi] (its constructor,
    [_check_response], [_raise_error] and [_authorise]) and of the
    exception classes [NBResponseError], [NBBadRequestError] and
    [NBNotFoundError], followed by the properties of the response
    classification and of the session life cycle. *)

From Stdlib Require Import ZArith String List Lia.
From stdpp Require Import base option gmap strings.

Import ListNotations.
Local Open Scope string_scope.
Local Open Scope Z_scope.

(** ** Python values that the module handles *)

(** Truth value of an optional string: [None] and the empty string are
    falsy, every other string is truthy. *)
Definition truthy (o : option string) : bool :=
  match o with
  | None => false
  | Some s => negb (String.eqb s "")
  end.

(** [a or b]: the first operand when it is truthy, the second otherwise. *)
Definition py_or (a b : option string) : option string :=
  if truthy a then a else b.

(** ** The exception classes *)

Inductive PyClass : Type :=
  | Exception
  | AssertionError
  | NBResponseError
  | NBBadRequestError
  | NBNotFoundError.

#[global] Instance PyClass_eq_dec : EqDecision PyClass.
Proof. solve_decision. Defined.

(** The base named in each [class] statement ([Exception] is the root of
    the part of the hierarchy that matters here). *)
Definition base_class (c : PyClass) : option PyClass :=
  match c with
  | Exception => None
  | AssertionError => Some Exception
  | NBResponseError => Some Exception
  | NBBadRequestError => Some NBResponseError
  | NBNotFoundError => Some NBResponseError
  end.

Fixpoint issubclass_upto (fuel : nat) (c d : PyClass) : bool :=
  if bool_decide (c = d) then true
  else match fuel, base_class c with
       | S fuel', Some b => issubclass_upto fuel' b d
       | _, _ => false
       end.

(** [issubclass(c, d)]; no chain of bases is longer than two links. *)
Definition issubclass (c d : PyClass) : bool := issubclass_upto 2 c d.

(** [dict.get(k) or d] on a dictionary of classes: a class object is always
    truthy, so the default is taken exactly when the key is missing. *)
Definition class_or (o : option PyClass) (d : PyClass) : PyClass :=
  match o with
  | Some c => c
  | None => d
  end.

(** ** Responses, errors, sessions *)

(** [httplib2.Response]: a mapping of header fields with a numeric
    [status] attribute. *)
Record Response : Type := mkResponse {
  status : Z;
  fields : gmap string string
}.

(** An instance of [NBResponseError] or of one of its subclasses: its
    class, the [args] set by [Exception.__init__], and the three
    attributes set by [NBResponseError.__init__]. *)
Record ResponseErrorObj : Type := mkResponseError {
  cls : PyClass;
  args : option string;
  url : option string;
  header : Response;
  body : string
}.

Inductive Exn : Type :=
  | ResponseError (e : ResponseErrorObj)
  | AssertionFailure.

Definition class_of (x : Exn) : PyClass :=
  match x with
  | ResponseError e => cls e
  | AssertionFailure => AssertionError
  end.

(** [except handler: ...] catches [x] when the class of [x] is a subclass
    of [handler]. *)
Definition catches (handler : PyClass) (x : Exn) : bool :=
  issubclass (class_of x) handler.

Record AccessTokenCredentials : Type := mkCredentials {
  access_token : string;
  user_agent : option string
}.

(** An [httplib2.Http] object; [http_id] is its identity. *)
Record Http : Type := mkHttp {
  http_id : nat;
  disable_ssl_certificate_validation : bool;
  credentials : option AccessTokenCredentials
}.

(** [cred.authorize(http)] wraps the requests of [http] and returns the
    same object. *)
Definition authorize (cred : AccessTokenCredentials) (h : Http) : Http :=
  {| http_id := http_id h;
     disable_ssl_certificate_validation := disable_ssl_certificate_validation h;
     credentials := Some cred |}.

(** ** The gateway object *)

Record NationBuilderApi : Type := mkApi {
  NATION_SLUG : string;
  ACCESS_TOKEN : option string;
  BASE_URL : string;
  PAGINATE_QUERY : string;
  GET_PEOPLE_URL : string;
  GET_PERSON_URL : string;
  MATCH_PERSON_URL : string;
  MATCH_EMAIL_URL : string;
  SEARCH_PERSON_URL : string;
  NEARBY_URL : string;
  UPDATE_PERSON_URL : string;
  REGISTER_PERSON_URL : string;
  PERSON_TAGS_URL : string;
  REMOVE_TAG_URL : string;
  LIST_TAGS_URL : string;
  GET_BY_TAG_URL : string;
  LIST_INDEX_URL : string;
  GET_LIST_URL : string;
  GET_CONTACT_URL : string;
  CONTACT_TYPES_URL : string;
  UPDATE_CONTACT_TYPE_URL : string;
  CONTACT_METHODS_URL : string;
  CONTACT_STATUS_URL : string;
  USER_AGENT : string;
  HEADERS : gmap string string;
  http : option Http
}.

(** [self.http = v] *)
Definition set_http (v : option Http) (g : NationBuilderApi) : NationBuilderApi :=
  {| NATION_SLUG := NATION_SLUG g;
     ACCESS_TOKEN := ACCESS_TOKEN g;
     BASE_URL := BASE_URL g;
     PAGINATE_QUERY := PAGINATE_QUERY g;
     GET_PEOPLE_URL := GET_PEOPLE_URL g;
     GET_PERSON_URL := GET_PERSON_URL g;
     MATCH_PERSON_URL := MATCH_PERSON_URL g;
     MATCH_EMAIL_URL := MATCH_EMAIL_URL g;
     SEARCH_PERSON_URL := SEARCH_PERSON_URL g;
     NEARBY_URL := NEARBY_URL g;
     UPDATE_PERSON_URL := UPDATE_PERSON_URL g;
     REGISTER_PERSON_URL := REGISTER_PERSON_URL g;
     PERSON_TAGS_URL := PERSON_TAGS_URL g;
     REMOVE_TAG_URL := REMOVE_TAG_URL g;
     LIST_TAGS_URL := LIST_TAGS_URL g;
     GET_BY_TAG_URL := GET_BY_TAG_URL g;
     LIST_INDEX_URL := LIST_INDEX_URL g;
     GET_LIST_URL := GET_LIST_URL g;
     GET_CONTACT_URL := GET_CONTACT_URL g;
     CONTACT_TYPES_URL := CONTACT_TYPES_URL g;
     UPDATE_CONTACT_TYPE_URL := UPDATE_CONTACT_TYPE_URL g;
     CONTACT_METHODS_URL := CONTACT_METHODS_URL g;
     CONTACT_STATUS_URL := CONTACT_STATUS_URL g;
     USER_AGENT := USER_AGENT g;
     HEADERS := HEADERS g;
     http := v |}.

(** ** The process around the gateway *)

(** What [print] was given: an object, or a [%]-format applied to one. *)
Inductive PyVal : Type :=
  | VNone
  | VStr (s : string)
  | VResponse (r : Response).

Definition of_optional (o : option string) : PyVal :=
  match o with
  | None => VNone
  | Some s => VStr s
  end.

Inductive Printed : Type :=
  | PrintValue (v : PyVal)
  | PrintFormat (fmt : string) (v : PyVal).

(** A record handed to the handlers of the logger [nbpy]. *)
Record LogRecord : Type := mkLogRecord {
  levelno : Z;
  msg : string;
  log_args : option string
}.

Definition DEBUG : Z := 10.

(** The state the methods run in: the gateway [self], the standard output,
    the logger named [nbpy] (its effective level and the records it has
    handled) and the number of [httplib2.Http] objects built so far. *)
Record State : Type := mkState {
  self : NationBuilderApi;
  stdout : list Printed;
  log_level : Z;
  log_records : list LogRecord;
  http_built : nat
}.

Definition with_self (g : NationBuilderApi) (st : State) : State :=
  {| self := g; stdout := stdout st; log_level := log_level st;
     log_records := log_records st; http_built := http_built st |}.

Definition with_stdout (out : list Printed) (st : State) : State :=
  {| self := self st; stdout := out; log_level := log_level st;
     log_records := log_records st; http_built := http_built st |}.

Definition with_log_records (rs : list LogRecord) (st : State) : State :=
  {| self := self st; stdout := stdout st; log_level := log_level st;
     log_records := rs; http_built := http_built st |}.

Definition with_http_built (n : nat) (st : State) : State :=
  {| self := self st; stdout := stdout st; log_level := log_level st;
     log_records := log_records st; http_built := n |}.

(** ** Computations that may raise *)

Inductive Result (A : Type) : Type :=
  | Return (a : A)
  | Raise (x : Exn).
Arguments Return {A} a.
Arguments Raise {A} x.

Definition M (A : Type) : Type := State -> Result A * State.

#[global] Instance M_ret : MRet M := fun A a st => (Return a, st).

#[global] Instance M_bind : MBind M := fun A B k c st =>
  match c st with
  | (Return a, st') => k a st'
  | (Raise x, st') => (Raise x, st')
  end.

Definition raise {A : Type} (x : Exn) : M A := fun st => (Raise x, st).

Definition modify (f : State -> State) : M unit := fun st => (Return tt, f st).

Definition get_self : M NationBuilderApi := fun st => (Return (self st), st).

(** [print(x)] *)
Definition print (p : Printed) : M unit :=
  modify (fun st => with_stdout (stdout st ++ [p]) st).

(** [log.debug(fmt, arg)]: the record is made and handled only when the
    logger is enabled for [DEBUG]. *)
Definition log_debug (fmt : string) (arg : option string) : M unit :=
  modify (fun st =>
    if log_level st <=? DEBUG
    then with_log_records (log_records st ++ [mkLogRecord DEBUG fmt arg]) st
    else st).

(** [httplib2.Http(disable_ssl_certificate_validation=flag)]: a new object. *)
Definition Http_new (flag : bool) : M Http := fun st =>
  (Return (mkHttp (http_built st) flag None),
   with_http_built (S (http_built st)) st).

(** ** [class NBResponseError(Exception)] *)

(** [cls(msg, header, body, url)] for [cls] one of [NBResponseError],
    [NBBadRequestError], [NBNotFoundError]: the two subclasses have an empty
    body, so all three run [NBResponseError.__init__]. *)
Definition NBResponseError__init__ (cls : PyClass) (msg : option string)
    (header : Response) (body : string) (url : option string)
    : M ResponseErrorObj :=
  print (PrintValue (of_optional url));;
  print (PrintFormat "Header: %s" (VResponse header));;
  print (PrintFormat "Body: %s" (VStr body));;
  mret {| cls := cls; args := msg; url := url; header := header; body := body |}.

(** ** [class NationBuilderApi(object)] *)

Definition __init__ (nation_slug : string) (api_key : option string) : M unit :=
  let NATION_SLUG := nation_slug in
  let ACCESS_TOKEN := api_key in
  let BASE_URL := String.concat "" ["https://"; NATION_SLUG;
                                    ".nationbuilder.com/api/v1"] in
  let PAGINATE_QUERY := "?page={page}&per_page={per_page}" in
  let GET_PEOPLE_URL := BASE_URL ++ "/people" in
  let GET_PERSON_URL := GET_PEOPLE_URL ++ "/{0}" in
  let MATCH_PERSON_URL := BASE_URL ++ "/people/match?" in
  let MATCH_EMAIL_URL := BASE_URL ++ "/people/match?email={0}" in
  let SEARCH_PERSON_URL := (GET_PEOPLE_URL ++ "/search") ++ PAGINATE_QUERY in
  let NEARBY_URL := (((GET_PEOPLE_URL ++ "/nearby") ++ PAGINATE_QUERY)
                     ++ "&location={lat},{lng}") ++ "&distance={dist}" in
  let UPDATE_PERSON_URL := GET_PERSON_URL in
  let REGISTER_PERSON_URL := GET_PERSON_URL ++ "/register" in
  let PERSON_TAGS_URL := GET_PERSON_URL ++ "/taggings" in
  let REMOVE_TAG_URL := PERSON_TAGS_URL ++ "/{1}" in
  let LIST_TAGS_URL := (BASE_URL ++ "/tags") ++ PAGINATE_QUERY in
  let GET_BY_TAG_URL := String.concat "" [BASE_URL; "/tags/{tag}/people";
                                          PAGINATE_QUERY] in
  let LIST_INDEX_URL := (BASE_URL ++ "/lists") ++ PAGINATE_QUERY in
  let GET_LIST_URL := String.concat "" [BASE_URL; "/lists/{list_id}/people";
                                        PAGINATE_QUERY] in
  let GET_CONTACT_URL := GET_PERSON_URL ++ "/contacts" in
  let CONTACT_TYPES_URL := BASE_URL ++ "/settings/contact_types" in
  let UPDATE_CONTACT_TYPE_URL := CONTACT_TYPES_URL ++ "/{id}" in
  let CONTACT_METHODS_URL := BASE_URL ++ "/settings/contact_methods" in
  let CONTACT_STATUS_URL := BASE_URL ++ "/settings/contact_statuses" in
  let USER_AGENT := "nbpy/0.2" in
  let HEADERS : gmap string string :=
    {[ "Content-type" := "application/json";
       "Accept" := "application/json";
       "User-Agent" := USER_AGENT ]} in
  modify (with_self
    (mkApi NATION_SLUG ACCESS_TOKEN BASE_URL PAGINATE_QUERY GET_PEOPLE_URL
       GET_PERSON_URL MATCH_PERSON_URL MATCH_EMAIL_URL SEARCH_PERSON_URL
       NEARBY_URL UPDATE_PERSON_URL REGISTER_PERSON_URL PERSON_TAGS_URL
       REMOVE_TAG_URL LIST_TAGS_URL GET_BY_TAG_URL LIST_INDEX_URL GET_LIST_URL
       GET_CONTACT_URL CONTACT_TYPES_URL UPDATE_CONTACT_TYPE_URL
       CONTACT_METHODS_URL CONTACT_STATUS_URL USER_AGENT HEADERS None)).

Definition _raise_error (msg : option string) (header : Response)
    (body : string) (url : option string) : M unit :=
  let error_map : gmap Z PyClass :=
    {[ 404 := NBNotFoundError;
       400 := NBBadRequestError ]} in
  let err := class_or (error_map !! status header) NBResponseError in
  e ← NBResponseError__init__ err msg header body url;
  raise (ResponseError e).

Definition _check_response (headers : Response) (content : string)
    (attempted_action : option string) (url : option string) : M unit :=
  if (status headers <? 200) || (status headers >? 299) then
    _raise_error attempted_action headers content url
  else
    log_debug "Request to %s successful."
              (py_or (py_or url attempted_action) (Some "Unknown")).

(** [self.http = h] *)
Definition assign_http (h : Http) : M unit :=
  modify (fun st => with_self (set_http (Some h) (self st)) st).

Definition _authorise : M unit :=
  g ← get_self;
  match http g with
  | Some _ => mret tt
  | None =>
    match ACCESS_TOKEN g with
    | None => raise AssertionFailure
    | Some token =>
      let cred := mkCredentials token None in
      h ← Http_new true;
      assign_http h;;
      assign_http (authorize cred h)
    end
  end.

(** ** Sequences of calls on one gateway *)

Inductive Call : Type :=
  | CallAuthorise
  | CallCheckResponse (headers : Response) (content : string)
      (attempted_action : option string) (url : option string).

Definition call (c : Call) : M unit :=
  match c with
  | CallAuthorise => _authorise
  | CallCheckResponse headers content attempted_action url =>
    _check_response headers content attempted_action url
  end.

(** The state after a caller has made the calls one after the other, going
    on after a call that raised (it caught the exception). *)
Fixpoint run_calls (cs : list Call) (st : State) : State :=
  match cs with
  | [] => st
  | c :: cs' => run_calls cs' (snd (call c st))
  end.

(** A state for examples: a blank object before [__init__], nothing
    printed or logged, the logger at the given level. *)
Definition blank_api : NationBuilderApi :=
  mkApi "" None "" "" "" "" "" "" "" "" "" "" "" "" "" "" "" "" "" "" "" "" ""
        "" ∅ None.

Definition initial_state (level : Z) : State :=
  mkState blank_api [] level [] 0.

(** The state after [NationBuilderApi(nation_slug, api_key)]. *)
Definition constructed (nation_slug : string) (api_key : option string)
    (level : Z) : State :=
  snd (__init__ nation_slug api_key (initial_state level)).

Definition WARNING : Z := 30.

(** The logger reconfigured to another effective level. *)
Definition with_log_level (level : Z) (st : State) : State :=
  {| self := self st; stdout := stdout st; log_level := level;
     log_records := log_records st; http_built := http_built st |}.

(** How a call ended, as a caller sees it: [None] for a normal return, the
    class of the exception otherwise. *)
Definition outcome_class {A : Type} (r : Result A) : option PyClass :=
  match r with
  | Return _ => None
  | Raise x => Some (class_of x)
  end.

(** What [NBResponseError.__init__] prints. *)
Definition diagnostics (header : Response) (body : string)
    (url : option string) : list Printed :=
  [ PrintValue (of_optional url);
    PrintFormat "Header: %s" (VResponse header);
    PrintFormat "Body: %s" (VStr body) ].

(** ** Bookkeeping for sequences of calls and for the constructor *)

(** The URL attributes that [__init__] sets after [BASE_URL], in the order
    of the source. *)
Definition url_attributes (g : NationBuilderApi) : list string :=
  [ GET_PEOPLE_URL g; GET_PERSON_URL g; MATCH_PERSON_URL g; MATCH_EMAIL_URL g;
    SEARCH_PERSON_URL g; NEARBY_URL g; UPDATE_PERSON_URL g;
    REGISTER_PERSON_URL g; PERSON_TAGS_URL g; REMOVE_TAG_URL g;
    LIST_TAGS_URL g; GET_BY_TAG_URL g; LIST_INDEX_URL g; GET_LIST_URL g;
    GET_CONTACT_URL g; CONTACT_TYPES_URL g; UPDATE_CONTACT_TYPE_URL g;
    CONTACT_METHODS_URL g; CONTACT_STATUS_URL g ].

(** The test at the head of [_check_response]. *)
Definition is_error_status (s : Z) : bool := (s <? 200) || (s >? 299).

(** How many calls of a sequence are [_check_response] on a status that
    fails that test, and how many on a status that passes it. *)
Fixpoint error_responses (cs : list Call) : nat :=
  match cs with
  | [] => 0%nat
  | CallCheckResponse h _ _ _ :: cs' =>
    ((if is_error_status (status h) then 1 else 0) + error_responses cs')%nat
  | CallAuthorise :: cs' => error_responses cs'
  end.

Fixpoint success_responses (cs : list Call) : nat :=
  match cs with
  | [] => 0%nat
  | CallCheckResponse h _ _ _ :: cs' =>
    ((if is_error_status (status h) then 0 else 1) + success_responses cs')%nat
  | CallAuthorise :: cs' => success_responses cs'
  end.

(** * Properties *)

(** ** Equations of the methods *)

Lemma error_map_lookup (s : Z) :
  ({[ 404 := NBNotFoundError; 400 := NBBadRequestError ]} : gmap Z PyClass) !! s
  = if decide (s = 404) then Some NBNotFoundError
    else if decide (s = 400) then Some NBBadRequestError
    else None.
Proof.
  destruct (decide (s = 404)) as [->|H404]; [reflexivity|].
  rewrite lookup_insert_ne by congruence.
  destruct (decide (s = 400)) as [->|H400]; [reflexivity|].
  apply lookup_singleton_ne; congruence.
Qed.

Lemma NBResponseError__init___eq (c : PyClass) (msg : option string)
    (h : Response) (b : string) (u : option string) (st : State) :
  NBResponseError__init__ c msg h b u st
  = (Return (mkResponseError c msg u h b),
     with_stdout (stdout st ++ diagnostics h b u) st).
Proof.
  unfold NBResponseError__init__, diagnostics, print, modify, mbind, M_bind, mret, M_ret.
  cbn. unfold with_stdout; cbn. rewrite <- !app_assoc. reflexivity.
Qed.

Lemma _raise_error_eq (msg : option string) (h : Response) (b : string)
    (u : option string) (st : State) :
  _raise_error msg h b u st
  = (Raise (ResponseError
       (mkResponseError
          (if decide (status h = 404) then NBNotFoundError
           else if decide (status h = 400) then NBBadRequestError
           else NBResponseError) msg u h b)),
     with_stdout (stdout st ++ diagnostics h b u) st).
Proof.
  unfold _raise_error, mbind, M_bind.
  rewrite NBResponseError__init___eq, error_map_lookup.
  unfold raise. repeat case_decide; reflexivity.
Qed.

Lemma _check_response_non2xx (h : Response) (c : string)
    (a u : option string) :
  status h < 200 \/ 299 < status h ->
  _check_response h c a u = _raise_error a h c u.
Proof.
  intros H. unfold _check_response.
  destruct (Z.ltb_spec (status h) 200); [reflexivity|].
  rewrite Z.gtb_ltb. destruct (Z.ltb_spec 299 (status h)); [reflexivity|lia].
Qed.

Lemma _check_response_2xx (h : Response) (c : string) (a u : option string) :
  200 <= status h <= 299 ->
  _check_response h c a u
  = log_debug "Request to %s successful."
              (py_or (py_or u a) (Some "Unknown")).
Proof.
  intros H. unfold _check_response.
  destruct (Z.ltb_spec (status h) 200); [lia|].
  rewrite Z.gtb_ltb. destruct (Z.ltb_spec 299 (status h)); [lia|reflexivity].
Qed.

Lemma truthy_nonempty (s : string) : s <> "" -> truthy (Some s) = true.
Proof.
  intros Hs. cbn. destruct (String.eqb_spec s ""); [contradiction|reflexivity].
Qed.

Lemma py_or_truthy (a b : option string) : truthy a = true -> py_or a b = a.
Proof. intros H. unfold py_or. rewrite H. reflexivity. Qed.

Lemma py_or_falsy (a b : option string) : truthy a = false -> py_or a b = b.
Proof. intros H. unfold py_or. rewrite H. reflexivity. Qed.

Lemma log_debug_eq (fmt : string) (arg : option string) (st : State) :
  log_debug fmt arg st
  = (Return tt,
     if log_level st <=? DEBUG
     then with_log_records (log_records st ++ [mkLogRecord DEBUG fmt arg]) st
     else st).
Proof. reflexivity. Qed.

Lemma status_range_dec (s : Z) : {200 <= s <= 299} + {s < 200 \/ 299 < s}.
Proof.
  destruct (Z_lt_dec s 200); [right; lia|].
  destruct (Z_lt_dec 299 s); [right; lia|left; lia].
Qed.

Lemma _check_response_frame (h : Response) (c : string) (a u : option string)
    (st : State) :
  self (snd (_check_response h c a u st)) = self st
  /\ http_built (snd (_check_response h c a u st)) = http_built st
  /\ log_level (snd (_check_response h c a u st)) = log_level st.
Proof.
  destruct (status_range_dec (status h)) as [Hok|Herr].
  - rewrite (_check_response_2xx h c a u Hok), log_debug_eq. cbn.
    destruct (log_level st <=? DEBUG); auto.
  - rewrite (_check_response_non2xx h c a u Herr), _raise_error_eq. auto.
Qed.

Lemma _authorise_session (st : State) (h : Http) :
  http (self st) = Some h -> _authorise st = (Return tt, st).
Proof.
  intros H. unfold _authorise, mbind, M_bind, get_self. rewrite H. reflexivity.
Qed.

Lemma _authorise_no_token (st : State) :
  http (self st) = None -> ACCESS_TOKEN (self st) = None ->
  _authorise st = (Raise AssertionFailure, st).
Proof.
  intros Hh Ht. unfold _authorise, mbind, M_bind, get_self.
  rewrite Hh, Ht. reflexivity.
Qed.

Lemma _authorise_fresh (st : State) (token : string) :
  http (self st) = None -> ACCESS_TOKEN (self st) = Some token ->
  _authorise st
  = (Return tt,
     with_self
       (set_http (Some (mkHttp (http_built st) true
                               (Some (mkCredentials token None))))
                 (self st))
       (with_http_built (S (http_built st)) st)).
Proof.
  intros Hh Ht. unfold _authorise, mbind, M_bind, get_self.
  rewrite Hh, Ht. reflexivity.
Qed.

Lemma call_keeps_session (c : Call) (st : State) (h : Http) :
  http (self st) = Some h ->
  http (self (snd (call c st))) = Some h
  /\ http_built (snd (call c st)) = http_built st.
Proof.
  intros H. destruct c as [|hd ct a u]; cbn [call].
  - rewrite (_authorise_session st h H). auto.
  - destruct (_check_response_frame hd ct a u st) as (Hs & Hb & _).
    rewrite Hs, Hb. auto.
Qed.

Lemma run_calls_keeps_session (cs : list Call) :
  forall (st : State) (h : Http),
  http (self st) = Some h ->
  http (self (run_calls cs st)) = Some h
  /\ http_built (run_calls cs st) = http_built st.
Proof.
  induction cs as [|c cs IH]; intros st h H; cbn [run_calls]; [auto|].
  destruct (call_keeps_session c st h H) as [Hs Hb].
  destruct (IH _ h Hs) as [Hs' Hb']. rewrite Hs', Hb', Hb. auto.
Qed.

Lemma __init___eq (nation_slug : string) (api_key : option string) (st : State) :
  fst (__init__ nation_slug api_key st) = Return tt
  /\ ACCESS_TOKEN (self (snd (__init__ nation_slug api_key st))) = api_key
  /\ NATION_SLUG (self (snd (__init__ nation_slug api_key st))) = nation_slug
  /\ http (self (snd (__init__ nation_slug api_key st))) = None
  /\ http_built (snd (__init__ nation_slug api_key st)) = http_built st
  /\ stdout (snd (__init__ nation_slug api_key st)) = stdout st
  /\ log_records (snd (__init__ nation_slug api_key st)) = log_records st.
Proof. repeat split. Qed.

(** ** Classification of responses *)

(** C1: on every status outside 200..299 (below 200 as well as above 299)
    [_check_response] does not return: it raises one response error whose
    class is fixed by the status alone, [NBNotFoundError] for 404,
    [NBBadRequestError] for 400 and [NBResponseError] for every other
    status. *)
Theorem check_response_classifies (headers : Response) (content : string)
    (attempted_action url : option string) (st : State)
    (Hstatus : status headers < 200 \/ 299 < status headers) :
  exists e : ResponseErrorObj,
    fst (_check_response headers content attempted_action url st)
    = Raise (ResponseError e)
    /\ (status headers = 404 -> cls e = NBNotFoundError)
    /\ (status headers = 400 -> cls e = NBBadRequestError)
    /\ (status headers <> 404 -> status headers <> 400 ->
        cls e = NBResponseError).
Proof.
  rewrite (_check_response_non2xx headers content attempted_action url Hstatus).
  rewrite _raise_error_eq. eexists; split; [reflexivity|]. cbn.
  repeat split; intros; repeat case_decide; congruence || lia.
Qed.

Lemma check_response_classifies_witness :
  (status (mkResponse 503 ∅) < 200 \/ 299 < status (mkResponse 503 ∅))
  /\ exists e : ResponseErrorObj,
       fst (_check_response (mkResponse 503 ∅) "busy" (Some "list tags")
              (Some "https://acme.nationbuilder.com/api/v1/tags")
              (constructed "acme" (Some "FFAA55") WARNING))
       = Raise (ResponseError e)
       /\ (status (mkResponse 503 ∅) = 404 -> cls e = NBNotFoundError)
       /\ (status (mkResponse 503 ∅) = 400 -> cls e = NBBadRequestError)
       /\ (status (mkResponse 503 ∅) <> 404 -> status (mkResponse 503 ∅) <> 400 ->
           cls e = NBResponseError).
Proof.
  split; [right; simpl; lia|].
  apply (check_response_classifies (mkResponse 503 ∅) "busy" (Some "list tags")
           (Some "https://acme.nationbuilder.com/api/v1/tags")
           (constructed "acme" (Some "FFAA55") WARNING)).
  right; simpl; lia.
Defined.

(** C2: on every status in 200..299 [_check_response] returns normally and
    raises nothing; the gateway, the standard output and the count of
    sessions are as before, and the only change is one record at level
    [DEBUG] given to the logger (dropped when the logger is not enabled for
    that level). *)
Theorem check_response_success (headers : Response) (content : string)
    (attempted_action url : option string) (st : State)
    (Hstatus : 200 <= status headers <= 299) :
  exists r : LogRecord,
    levelno r = DEBUG
    /\ _check_response headers content attempted_action url st
       = (Return tt,
          if log_level st <=? DEBUG
          then with_log_records (log_records st ++ [r]) st
          else st).
Proof.
  rewrite (_check_response_2xx headers content attempted_action url Hstatus).
  rewrite log_debug_eq. eexists; split; [|reflexivity]. reflexivity.
Qed.

Lemma check_response_success_witness :
  200 <= status (mkResponse 204 ∅) <= 299
  /\ exists r : LogRecord,
       levelno r = DEBUG
       /\ _check_response (mkResponse 204 ∅) "" (Some "delete tag") None
            (constructed "acme" (Some "FFAA55") DEBUG)
          = (Return tt,
             if log_level (constructed "acme" (Some "FFAA55") DEBUG) <=? DEBUG
             then with_log_records
                    (log_records (constructed "acme" (Some "FFAA55") DEBUG) ++ [r])
                    (constructed "acme" (Some "FFAA55") DEBUG)
             else constructed "acme" (Some "FFAA55") DEBUG).
Proof.
  split; [simpl; lia|].
  apply (check_response_success (mkResponse 204 ∅) "" (Some "delete tag") None
           (constructed "acme" (Some "FFAA55") DEBUG)).
  simpl; lia.
Defined.

(** C3: on every status outside 200..299 the error raised by
    [_check_response] carries the URL, the headers and the body it was
    given, unchanged, next to the message; and the three classes are built
    by the one constructor, so each carries the same four items. *)
Theorem check_response_error_payload (headers : Response) (content : string)
    (attempted_action url : option string) (st : State)
    (Hstatus : status headers < 200 \/ 299 < status headers) :
  (exists c : PyClass,
     fst (_check_response headers content attempted_action url st)
     = Raise (ResponseError
                (mkResponseError c attempted_action url headers content)))
  /\ (forall c : PyClass,
        c = NBResponseError \/ c = NBBadRequestError \/ c = NBNotFoundError ->
        fst (NBResponseError__init__ c attempted_action headers content url st)
        = Return (mkResponseError c attempted_action url headers content)).
Proof.
  split.
  - rewrite (_check_response_non2xx headers content attempted_action url Hstatus).
    rewrite _raise_error_eq. eexists; reflexivity.
  - intros c _. rewrite NBResponseError__init___eq. reflexivity.
Qed.

Lemma check_response_error_payload_witness :
  (status (mkResponse 404 {[ "content-type" := "application/json" ]}) < 200
   \/ 299 < status (mkResponse 404 {[ "content-type" := "application/json" ]}))
  /\ exists c : PyClass,
       fst (_check_response
              (mkResponse 404 {[ "content-type" := "application/json" ]})
              "{error: not found}" (Some "get person")
              (Some "https://acme.nationbuilder.com/api/v1/people/7")
              (constructed "acme" (Some "FFAA55") WARNING))
       = Raise (ResponseError
                  (mkResponseError c (Some "get person")
                     (Some "https://acme.nationbuilder.com/api/v1/people/7")
                     (mkResponse 404 {[ "content-type" := "application/json" ]})
                     "{error: not found}")).
Proof.
  split; [right; simpl; lia|].
  apply (check_response_error_payload
           (mkResponse 404 {[ "content-type" := "application/json" ]})
           "{error: not found}" (Some "get person")
           (Some "https://acme.nationbuilder.com/api/v1/people/7")
           (constructed "acme" (Some "FFAA55") WARNING)).
  right; simpl; lia.
Defined.

(** ** The credential and the session *)

(** C4, as the claim states it, fails: building the gateway returns
    normally with an absent credential as with an empty one, and with the
    empty credential [_authorise] goes on to build a session. *)
Lemma credential_not_checked_at_construction :
  fst (__init__ "acme" None (initial_state WARNING)) = Return tt
  /\ fst (__init__ "acme" (Some "") (initial_state WARNING)) = Return tt
  /\ fst (_authorise (constructed "acme" (Some "") WARNING)) = Return tt
  /\ http (self (snd (_authorise (constructed "acme" (Some "") WARNING))))
     = Some (mkHttp 0 true (Some (mkCredentials "" None))).
Proof. repeat split. Qed.

(** C4, amended: the constructor returns normally for every credential,
    absent, empty or not, without looking at it: it stores the credential as
    given, builds no session, prints and logs nothing.  On a gateway built
    with an absent credential [_authorise] fails its assertion before any
    session is built: nothing in the state changes, and the gateway is left
    without a session.  On a gateway built with a credential that is
    present, the empty string included, [_authorise] returns normally with
    the session built from that credential. *)
Theorem authorise_rejects_absent_credential (nation_slug : string)
    (api_key : option string) (token : string) (st0 : State) :
  (fst (__init__ nation_slug api_key st0) = Return tt
   /\ ACCESS_TOKEN (self (snd (__init__ nation_slug api_key st0))) = api_key
   /\ http (self (snd (__init__ nation_slug api_key st0))) = None
   /\ http_built (snd (__init__ nation_slug api_key st0)) = http_built st0
   /\ stdout (snd (__init__ nation_slug api_key st0)) = stdout st0
   /\ log_records (snd (__init__ nation_slug api_key st0)) = log_records st0)
  /\ (let st := snd (__init__ nation_slug None st0) in
      _authorise st = (Raise AssertionFailure, st)
      /\ http (self st) = None
      /\ http_built st = http_built st0)
  /\ (let st := snd (__init__ nation_slug (Some token) st0) in
      fst (_authorise st) = Return tt
      /\ http (self (snd (_authorise st)))
         = Some (mkHttp (http_built st0) true (Some (mkCredentials token None)))
      /\ http_built (snd (_authorise st)) = S (http_built st0))
  /\ (let st := snd (__init__ nation_slug (Some "") st0) in
      fst (_authorise st) = Return tt
      /\ http (self (snd (_authorise st)))
         = Some (mkHttp (http_built st0) true (Some (mkCredentials "" None)))).
Proof.
  assert (Hfresh : forall (key : string) (st : State),
             st = snd (__init__ nation_slug (Some key) st0) ->
             fst (_authorise st) = Return tt
             /\ http (self (snd (_authorise st)))
                = Some (mkHttp (http_built st0) true
                               (Some (mkCredentials key None)))
             /\ http_built (snd (_authorise st)) = S (http_built st0)).
  { intros key st ->.
    destruct (__init___eq nation_slug (Some key) st0)
      as (_ & Ht & _ & Hh & Hb & _).
    rewrite (_authorise_fresh _ key Hh Ht). cbn [fst snd].
    split; [reflexivity|]. split; reflexivity. }
  split; [|split; [|split]].
  - destruct (__init___eq nation_slug api_key st0)
      as (Hr & Ht & _ & Hh & Hb & Ho & Hl).
    repeat (split; [assumption|]). assumption.
  - cbv zeta.
    destruct (__init___eq nation_slug None st0) as (_ & Ht & _ & Hh & Hb & _).
    split; [|split; assumption].
    apply _authorise_no_token; assumption.
  - cbv zeta. apply (Hfresh token). reflexivity.
  - cbv zeta. destruct (Hfresh "" _ eq_refl) as (Hr & Hs & _). split; assumption.
Qed.

(** C5: [_authorise] on a gateway that has a session returns with the whole
    state as it was, and no sequence of later calls replaces that session
    or builds another; on a gateway without a session whose credential is
    present, two calls in a row build one session, the one the second call
    finds. *)
Theorem authorise_idempotent (st : State) (h : Http) (cs : list Call)
    (fresh : State) (token : string)
    (Hsession : http (self st) = Some h)
    (Hfresh : http (self fresh) = None)
    (Htoken : ACCESS_TOKEN (self fresh) = Some token) :
  _authorise st = (Return tt, st)
  /\ (http (self (run_calls cs st)) = Some h
      /\ http_built (run_calls cs st) = http_built st)
  /\ (let st1 := snd (_authorise fresh) in
      let st2 := snd (_authorise st1) in
      fst (_authorise fresh) = Return tt
      /\ fst (_authorise st1) = Return tt
      /\ http (self st1)
         = Some (mkHttp (http_built fresh) true
                        (Some (mkCredentials token None)))
      /\ http (self st2) = http (self st1)
      /\ http_built st2 = S (http_built fresh)
      /\ st2 = st1).
Proof.
  split; [exact (_authorise_session st h Hsession)|].
  split; [exact (run_calls_keeps_session cs st h Hsession)|].
  cbv zeta. rewrite (_authorise_fresh fresh token Hfresh Htoken). cbn [fst snd].
  set (st1 := with_self _ _).
  assert (H1 : http (self st1)
               = Some (mkHttp (http_built fresh) true
                              (Some (mkCredentials token None))))
    by reflexivity.
  rewrite (_authorise_session st1 _ H1). cbn [fst snd].
  repeat split.
Qed.

Lemma authorise_idempotent_witness :
  http (self (snd (_authorise (constructed "acme" (Some "FFAA55") WARNING))))
  = Some (mkHttp 0 true (Some (mkCredentials "FFAA55" None)))
  /\ http (self (constructed "acme" (Some "FFAA55") WARNING)) = None
  /\ ACCESS_TOKEN (self (constructed "acme" (Some "FFAA55") WARNING))
     = Some "FFAA55"
  /\ _authorise (snd (_authorise (constructed "acme" (Some "FFAA55") WARNING)))
     = (Return tt, snd (_authorise (constructed "acme" (Some "FFAA55") WARNING)))
  /\ http (self (run_calls
                   [CallCheckResponse (mkResponse 404 ∅) "" None None;
                    CallAuthorise;
                    CallCheckResponse (mkResponse 200 ∅) "" None None]
                   (snd (_authorise (constructed "acme" (Some "FFAA55") WARNING)))))
     = Some (mkHttp 0 true (Some (mkCredentials "FFAA55" None)))
  /\ http_built
       (snd (_authorise
               (snd (_authorise (constructed "acme" (Some "FFAA55") WARNING)))))
     = 1%nat.
Proof.
  assert (Hs : http (self (snd (_authorise
                                  (constructed "acme" (Some "FFAA55") WARNING))))
               = Some (mkHttp 0 true (Some (mkCredentials "FFAA55" None))))
    by reflexivity.
  assert (Hf : http (self (constructed "acme" (Some "FFAA55") WARNING)) = None)
    by reflexivity.
  assert (Ht : ACCESS_TOKEN (self (constructed "acme" (Some "FFAA55") WARNING))
               = Some "FFAA55")
    by reflexivity.
  destruct (authorise_idempotent
              (snd (_authorise (constructed "acme" (Some "FFAA55") WARNING)))
              (mkHttp 0 true (Some (mkCredentials "FFAA55" None)))
              [CallCheckResponse (mkResponse 404 ∅) "" None None;
               CallAuthorise;
               CallCheckResponse (mkResponse 200 ∅) "" None None]
              (constructed "acme" (Some "FFAA55") WARNING) "FFAA55" Hs Hf Ht)
    as (Hnoop & (Hkeep & _) & (_ & _ & _ & _ & Hone & _)).
  split; [exact Hs|]. split; [exact Hf|]. split; [exact Ht|].
  split; [exact Hnoop|]. split; [exact Hkeep|]. exact Hone.
Defined.

(** ** Diagnostics *)

(** C6: building the error for a status outside 200..299 prints the URL,
    the headers and the body, in this order, whatever was printed before
    and whatever the level of the logger: the output is the same at every
    level. *)
Theorem error_construction_prints (headers : Response) (content : string)
    (attempted_action url : option string) (st : State) (level : Z)
    (Hstatus : status headers < 200 \/ 299 < status headers) :
  stdout (snd (_check_response headers content attempted_action url st))
  = (stdout st ++ [ PrintValue (of_optional url);
                    PrintFormat "Header: %s" (VResponse headers);
                    PrintFormat "Body: %s" (VStr content) ])%list
  /\ stdout (snd (_check_response headers content attempted_action url
                    (with_log_level level st)))
     = stdout (snd (_check_response headers content attempted_action url st))
  /\ (forall c : PyClass,
        stdout (snd (NBResponseError__init__ c attempted_action headers
                       content url st))
        = (stdout st ++ [ PrintValue (of_optional url);
                          PrintFormat "Header: %s" (VResponse headers);
                          PrintFormat "Body: %s" (VStr content) ])%list).
Proof.
  rewrite (_check_response_non2xx headers content attempted_action url Hstatus).
  rewrite !_raise_error_eq. repeat split.
  intros c. rewrite NBResponseError__init___eq. reflexivity.
Qed.

Lemma error_construction_prints_witness :
  (status (mkResponse 500 ∅) < 200 \/ 299 < status (mkResponse 500 ∅))
  /\ stdout (snd (_check_response (mkResponse 500 ∅) "oops" (Some "list people")
                    None (constructed "acme" (Some "FFAA55") WARNING)))
     = (stdout (constructed "acme" (Some "FFAA55") WARNING)
        ++ [ PrintValue (of_optional None);
             PrintFormat "Header: %s" (VResponse (mkResponse 500 ∅));
             PrintFormat "Body: %s" (VStr "oops") ])%list.
Proof.
  split; [right; simpl; lia|].
  apply (error_construction_prints (mkResponse 500 ∅) "oops" (Some "list people")
           None (constructed "acme" (Some "FFAA55") WARNING) DEBUG).
  right; simpl; lia.
Defined.

(** C7, as the claim states it, fails: with a URL that is present but
    empty, the record of a 200 response names the attempted action, not
    the URL; and with no URL and an empty description it names
    ["Unknown"]. *)
Lemma trace_skips_empty_url :
  log_records
    (snd (_check_response (mkResponse 200 ∅) "{}" (Some "get person") (Some "")
            (constructed "acme" (Some "FFAA55") DEBUG)))
  = [mkLogRecord DEBUG "Request to %s successful." (Some "get person")]
  /\ log_records
       (snd (_check_response (mkResponse 200 ∅) "{}" (Some "") None
               (constructed "acme" (Some "FFAA55") DEBUG)))
     = [mkLogRecord DEBUG "Request to %s successful." (Some "Unknown")].
Proof. split; reflexivity. Qed.

(** C7, amended: on a status in 200..299 the record given to the logger at
    level [DEBUG] names the URL when the URL is present and not empty;
    otherwise the attempted action when that is present and not empty;
    and ["Unknown"] when each of the two is absent or empty. *)
Theorem success_trace_names_target (headers : Response) (content : string)
    (attempted_action url : option string) (st : State)
    (Hstatus : 200 <= status headers <= 299) :
  exists target : option string,
    log_records (snd (_check_response headers content attempted_action url st))
    = (log_records st
       ++ (if log_level st <=? DEBUG
           then [mkLogRecord DEBUG "Request to %s successful." target]
           else []))%list
    /\ (forall u : string, url = Some u -> u <> "" -> target = Some u)
    /\ (forall a : string,
          url = None \/ url = Some "" ->
          attempted_action = Some a -> a <> "" -> target = Some a)
    /\ (url = None \/ url = Some "" ->
        attempted_action = None \/ attempted_action = Some "" ->
        target = Some "Unknown").
Proof.
  rewrite (_check_response_2xx headers content attempted_action url Hstatus).
  rewrite log_debug_eq. cbn [snd].
  exists (py_or (py_or url attempted_action) (Some "Unknown")). split.
  - destruct (log_level st <=? DEBUG); cbn; [reflexivity|].
    symmetry; apply app_nil_r.
  - split; [|split].
    + intros u -> Hu.
      rewrite (py_or_truthy (Some u) attempted_action (truthy_nonempty u Hu)).
      apply py_or_truthy, truthy_nonempty, Hu.
    + intros a Hu -> Ha.
      rewrite (py_or_falsy url (Some a)) by (destruct Hu as [-> | ->]; reflexivity).
      apply py_or_truthy, truthy_nonempty, Ha.
    + intros [-> | ->] [-> | ->]; reflexivity.
Qed.

Lemma success_trace_names_target_witness :
  200 <= status (mkResponse 200 ∅) <= 299
  /\ exists target : option string,
       log_records
         (snd (_check_response (mkResponse 200 ∅) "{id: 1}" (Some "get person")
                 (Some "https://acme.nationbuilder.com/api/v1/people/1")
                 (constructed "acme" (Some "FFAA55") DEBUG)))
       = (log_records (constructed "acme" (Some "FFAA55") DEBUG)
          ++ (if log_level (constructed "acme" (Some "FFAA55") DEBUG) <=? DEBUG
              then [mkLogRecord DEBUG "Request to %s successful." target]
              else []))%list
       /\ (forall u : string,
             Some "https://acme.nationbuilder.com/api/v1/people/1" = Some u ->
             u <> "" -> target = Some u)
       /\ (forall a : string,
             Some "https://acme.nationbuilder.com/api/v1/people/1" = None
             \/ Some "https://acme.nationbuilder.com/api/v1/people/1" = Some "" ->
             Some "get person" = Some a -> a <> "" -> target = Some a)
       /\ (Some "https://acme.nationbuilder.com/api/v1/people/1" = None
           \/ Some "https://acme.nationbuilder.com/api/v1/people/1" = Some "" ->
           Some "get person" = None \/ Some "get person" = Some "" ->
           target = Some "Unknown").
Proof.
  split; [simpl; lia|].
  apply (success_trace_names_target (mkResponse 200 ∅) "{id: 1}"
           (Some "get person")
           (Some "https://acme.nationbuilder.com/api/v1/people/1")
           (constructed "acme" (Some "FFAA55") DEBUG)).
  simpl; lia.
Defined.

(** ** The hierarchy of errors, and what the caller can rely on *)

(** C8: [NBNotFoundError] and [NBBadRequestError] are subclasses of
    [NBResponseError], and whatever [_check_response] raises on a status
    outside 200..299 is caught by a handler for [NBResponseError]. *)
Theorem response_errors_caught_by_base (headers : Response) (content : string)
    (attempted_action url : option string) (st : State)
    (Hstatus : status headers < 200 \/ 299 < status headers) :
  issubclass NBNotFoundError NBResponseError = true
  /\ issubclass NBBadRequestError NBResponseError = true
  /\ issubclass NBResponseError NBResponseError = true
  /\ exists x : Exn,
       fst (_check_response headers content attempted_action url st) = Raise x
       /\ catches NBResponseError x = true.
Proof.
  do 3 (split; [reflexivity|]).
  rewrite (_check_response_non2xx headers content attempted_action url Hstatus).
  rewrite _raise_error_eq. eexists; split; [reflexivity|].
  unfold catches; cbn [class_of cls]. repeat case_decide; reflexivity.
Qed.

Lemma response_errors_caught_by_base_witness :
  (status (mkResponse 400 ∅) < 200 \/ 299 < status (mkResponse 400 ∅))
  /\ exists x : Exn,
       fst (_check_response (mkResponse 400 ∅) "bad" (Some "update person") None
              (constructed "acme" (Some "FFAA55") WARNING))
       = Raise x
       /\ catches NBResponseError x = true.
Proof.
  split; [right; simpl; lia|].
  apply (response_errors_caught_by_base (mkResponse 400 ∅) "bad"
           (Some "update person") None
           (constructed "acme" (Some "FFAA55") WARNING)).
  right; simpl; lia.
Defined.

(** C9: [_check_response] leaves the gateway as it found it, whether it
    returns or raises: every attribute of [self], the session and the
    access token among them, is unchanged, and no session is built. *)
Theorem check_response_preserves_gateway (headers : Response)
    (content : string) (attempted_action url : option string) (st : State) :
  self (snd (_check_response headers content attempted_action url st)) = self st
  /\ http (self (snd (_check_response headers content attempted_action url st)))
     = http (self st)
  /\ ACCESS_TOKEN
       (self (snd (_check_response headers content attempted_action url st)))
     = ACCESS_TOKEN (self st)
  /\ http_built (snd (_check_response headers content attempted_action url st))
     = http_built st.
Proof.
  destruct (_check_response_frame headers content attempted_action url st)
    as (Hself & Hbuilt & _).
  rewrite Hself. auto.
Qed.

(** C10: the way [_check_response] ends depends on the status only: two
    calls with the same status, whatever their header fields, bodies,
    descriptions, URLs and states, both return normally or both raise an
    error of the same class. *)
Theorem outcome_depends_on_status_only (h1 h2 : Response) (c1 c2 : string)
    (a1 a2 u1 u2 : option string) (st1 st2 : State)
    (Hstatus : status h1 = status h2) :
  outcome_class (fst (_check_response h1 c1 a1 u1 st1))
  = outcome_class (fst (_check_response h2 c2 a2 u2 st2)).
Proof.
  destruct (status_range_dec (status h1)) as [Hok|Herr].
  - rewrite (_check_response_2xx h1 c1 a1 u1 Hok).
    rewrite Hstatus in Hok. rewrite (_check_response_2xx h2 c2 a2 u2 Hok).
    reflexivity.
  - rewrite (_check_response_non2xx h1 c1 a1 u1 Herr).
    rewrite Hstatus in Herr. rewrite (_check_response_non2xx h2 c2 a2 u2 Herr).
    rewrite !_raise_error_eq. cbn [fst outcome_class class_of cls].
    rewrite Hstatus. reflexivity.
Qed.

Lemma outcome_depends_on_status_only_witness :
  status (mkResponse 404 {[ "server" := "nginx" ]}) = status (mkResponse 404 ∅)
  /\ outcome_class
       (fst (_check_response (mkResponse 404 {[ "server" := "nginx" ]})
               "{error: not found}" (Some "get person")
               (Some "https://acme.nationbuilder.com/api/v1/people/7")
               (constructed "acme" (Some "FFAA55") WARNING)))
     = outcome_class
         (fst (_check_response (mkResponse 404 ∅) "" None None
                 (constructed "other" None DEBUG))).
Proof.
  split; [reflexivity|].
  apply (outcome_depends_on_status_only
           (mkResponse 404 {[ "server" := "nginx" ]}) (mkResponse 404 ∅)).
  reflexivity.
Defined.

(** * Further properties of the module *)

(** ** Strings *)

Lemma prefix_append (a b : string) : String.prefix a (a ++ b)%string = true.
Proof.
  induction a as [|c a IH]; [destruct b; reflexivity|].
  change (String c a ++ b)%string with (String c (a ++ b)%string).
  cbn [String.prefix]. destruct (Ascii.ascii_dec c c); [exact IH|congruence].
Qed.

Lemma prefix_append_r (a b c : string) :
  String.prefix a b = true -> String.prefix a (b ++ c)%string = true.
Proof.
  revert b. induction a as [|x a IH]; intros b H.
  - destruct (b ++ c)%string; reflexivity.
  - destruct b as [|y b]; [discriminate|].
    change (String y b ++ c)%string with (String y (b ++ c)%string).
    cbn [String.prefix] in *. destruct (Ascii.ascii_dec x y); [|discriminate].
    apply IH, H.
Qed.

Lemma length_append (a b : string) :
  String.length (a ++ b)%string = (String.length a + String.length b)%nat.
Proof.
  induction a as [|c a IH]; [reflexivity|].
  change (String c a ++ b)%string with (String c (a ++ b)%string).
  cbn [String.length]. rewrite IH. reflexivity.
Qed.

Lemma append_inj_r (a b t : string) : (a ++ t = b ++ t)%string -> a = b.
Proof.
  revert b. induction a as [|x a IH]; intros [|y b] H.
  - reflexivity.
  - apply (f_equal String.length) in H.
    rewrite !length_append in H. cbn [String.length] in H. lia.
  - apply (f_equal String.length) in H.
    rewrite !length_append in H. cbn [String.length] in H. lia.
  - change (String x (a ++ t)%string = String y (b ++ t)%string) in H.
    injection H as -> H. f_equal. apply IH, H.
Qed.

Lemma BASE_URL_eq (nation_slug : string) (api_key : option string) (st : State) :
  BASE_URL (self (snd (__init__ nation_slug api_key st)))
  = ("https://" ++ (nation_slug ++ ".nationbuilder.com/api/v1"))%string.
Proof. reflexivity. Qed.

(** ** The constructor *)

(** X1: every URL attribute set by [__init__] starts with [BASE_URL], which
    is [https://<nation_slug>.nationbuilder.com/api/v1]. *)
Theorem urls_start_with_base (nation_slug : string) (api_key : option string)
    (st : State) :
  BASE_URL (self (snd (__init__ nation_slug api_key st)))
  = ("https://" ++ (nation_slug ++ ".nationbuilder.com/api/v1"))%string
  /\ Forall (fun u => String.prefix
                        (BASE_URL (self (snd (__init__ nation_slug api_key st))))
                        u = true)
            (url_attributes (self (snd (__init__ nation_slug api_key st)))).
Proof.
  split; [reflexivity|].
  rewrite BASE_URL_eq.
  set (B := ("https://" ++ (nation_slug ++ ".nationbuilder.com/api/v1"))%string).
  assert (H0 : forall x, String.prefix B (B ++ x)%string = true)
    by (intros x; apply prefix_append).
  assert (H1 : forall x y, String.prefix B ((B ++ x) ++ y)%string = true)
    by (intros x y; apply prefix_append_r, H0).
  assert (H2 : forall x y z, String.prefix B (((B ++ x) ++ y) ++ z)%string = true)
    by (intros x y z; apply prefix_append_r, H1).
  assert (H3 : forall x y z w,
             String.prefix B ((((B ++ x) ++ y) ++ z) ++ w)%string = true)
    by (intros x y z w; apply prefix_append_r, H2).
  assert (H4 : forall x y z w v,
             String.prefix B (((((B ++ x) ++ y) ++ z) ++ w) ++ v)%string = true)
    by (intros x y z w v; apply prefix_append_r, H3).
  repeat constructor;
    first [ apply H0 | apply H1 | apply H2 | apply H3 | apply H4 ].
Qed.

(** X2: gateways of different nations never share a base URL: [BASE_URL]
    determines the nation slug. *)
Theorem base_url_determines_slug (slug1 slug2 : string)
    (key1 key2 : option string) (st1 st2 : State)
    (Hsame : BASE_URL (self (snd (__init__ slug1 key1 st1)))
             = BASE_URL (self (snd (__init__ slug2 key2 st2)))) :
  slug1 = slug2.
Proof.
  rewrite !BASE_URL_eq in Hsame.
  apply (String.app_inj "https://") in Hsame.
  exact (append_inj_r _ _ _ Hsame).
Qed.

Lemma base_url_determines_slug_witness :
  BASE_URL (self (snd (__init__ "acme" (Some "FFAA55") (initial_state WARNING))))
  = BASE_URL (self (snd (__init__ "acme" None (initial_state DEBUG))))
  /\ "acme" = "acme".
Proof.
  split; [reflexivity|].
  apply (base_url_determines_slug "acme" "acme" (Some "FFAA55") None
           (initial_state WARNING) (initial_state DEBUG)).
  reflexivity.
Defined.

(** X3: the request headers set by [__init__] hold exactly three fields,
    looked up by their exact spelling: [Content-type] and [Accept] are
    [application/json], [User-Agent] is the [USER_AGENT] attribute, and every
    other name is missing. *)
Theorem request_headers_lookup (nation_slug : string)
    (api_key : option string) (st : State) (name : string) :
  HEADERS (self (snd (__init__ nation_slug api_key st))) !! name
  = if decide (name = "Content-type") then Some "application/json"
    else if decide (name = "Accept") then Some "application/json"
    else if decide (name = "User-Agent")
         then Some (USER_AGENT (self (snd (__init__ nation_slug api_key st))))
         else None.
Proof.
  change (HEADERS (self (snd (__init__ nation_slug api_key st))))
    with ({[ "Content-type" := "application/json";
             "Accept" := "application/json";
             "User-Agent" := "nbpy/0.2" ]} : gmap string string).
  change (USER_AGENT (self (snd (__init__ nation_slug api_key st))))
    with "nbpy/0.2".
  destruct (decide (name = "Content-type")) as [->|H1]; [reflexivity|].
  rewrite lookup_insert_ne by congruence.
  destruct (decide (name = "Accept")) as [->|H2]; [reflexivity|].
  rewrite lookup_insert_ne by congruence.
  destruct (decide (name = "User-Agent")) as [->|H3]; [reflexivity|].
  apply lookup_singleton_ne; congruence.
Qed.

(** ** The session over sequences of calls *)

Lemma _authorise_output (st : State) :
  stdout (snd (_authorise st)) = stdout st
  /\ log_records (snd (_authorise st)) = log_records st
  /\ log_level (snd (_authorise st)) = log_level st.
Proof.
  destruct (http (self st)) as [h|] eqn:Hh.
  - rewrite (_authorise_session st h Hh). auto.
  - destruct (ACCESS_TOKEN (self st)) as [tok|] eqn:Ht.
    + rewrite (_authorise_fresh st tok Hh Ht). auto.
    + rewrite (_authorise_no_token st Hh Ht). auto.
Qed.

Lemma set_http_same (g : NationBuilderApi) : set_http (http g) g = g.
Proof. destruct g; reflexivity. Qed.

Lemma call_changes_http_only (c : Call) (st : State) :
  self (snd (call c st)) = set_http (http (self (snd (call c st)))) (self st).
Proof.
  destruct c as [|hd ct a u]; cbn [call].
  - destruct (http (self st)) as [h|] eqn:Hh.
    + rewrite (_authorise_session st h Hh). cbn [snd].
      symmetry; apply set_http_same.
    + destruct (ACCESS_TOKEN (self st)) as [tok|] eqn:Ht.
      * rewrite (_authorise_fresh st tok Hh Ht). reflexivity.
      * rewrite (_authorise_no_token st Hh Ht). cbn [snd].
        symmetry; apply set_http_same.
  - destruct (_check_response_frame hd ct a u st) as (Hs & _).
    rewrite Hs. symmetry; apply set_http_same.
Qed.

(** What a sequence of calls does to a gateway that starts without a
    session: it ends without one and has built none, or it ends with the
    one session built from the access token. *)
Lemma run_calls_fresh (cs : list Call) :
  forall st : State,
  http (self st) = None ->
  (http (self (run_calls cs st)) = None
   /\ http_built (run_calls cs st) = http_built st)
  \/ (exists tok : string,
        ACCESS_TOKEN (self st) = Some tok
        /\ http (self (run_calls cs st))
           = Some (mkHttp (http_built st) true (Some (mkCredentials tok None)))
        /\ http_built (run_calls cs st) = S (http_built st)).
Proof.
  induction cs as [|c cs IH]; intros st Hh; cbn [run_calls]; [left; auto|].
  destruct c as [|hd ct a u]; cbn [call].
  - destruct (ACCESS_TOKEN (self st)) as [tok|] eqn:Ht.
    + right. exists tok. split; [reflexivity|].
      rewrite (_authorise_fresh st tok Hh Ht). cbn [snd].
      apply (run_calls_keeps_session cs). reflexivity.
    + rewrite (_authorise_no_token st Hh Ht). cbn [snd].
      destruct (IH st Hh) as [H|(tok & Hc & _)]; [left; exact H|congruence].
  - destruct (_check_response_frame hd ct a u st) as (Hs & Hb & _).
    assert (Hh' : http (self (snd (_check_response hd ct a u st))) = None)
      by (rewrite Hs; exact Hh).
    destruct (IH _ Hh') as [H|(tok & Htok & Hsess & Hcount)].
    + left. rewrite <- Hb. exact H.
    + right. exists tok. rewrite <- Hs, <- Hb. auto.
Qed.

(** X4: whatever session a gateway that started without one holds after any
    sequence of calls, it is the session built from the stored access
    token: certificate validation is off, the credentials carry that token
    and no user agent. *)
Theorem session_comes_from_token (st : State) (cs : list Call) (h : Http)
    (Hfresh : http (self st) = None)
    (Hsession : http (self (run_calls cs st)) = Some h) :
  exists tok : string,
    ACCESS_TOKEN (self st) = Some tok
    /\ disable_ssl_certificate_validation h = true
    /\ credentials h = Some (mkCredentials tok None)
    /\ http_id h = http_built st.
Proof.
  destruct (run_calls_fresh cs st Hfresh) as [[Hnone _]|(tok & Htok & Hs & _)].
  - congruence.
  - exists tok. rewrite Hs in Hsession. injection Hsession as <-. auto.
Qed.

Lemma session_comes_from_token_witness :
  http (self (constructed "acme" (Some "FFAA55") WARNING)) = None
  /\ http (self (run_calls [CallCheckResponse (mkResponse 500 ∅) "" None None;
                           CallAuthorise; CallAuthorise]
                          (constructed "acme" (Some "FFAA55") WARNING)))
     = Some (mkHttp 0 true (Some (mkCredentials "FFAA55" None)))
  /\ exists tok : string,
       ACCESS_TOKEN (self (constructed "acme" (Some "FFAA55") WARNING)) = Some tok
       /\ disable_ssl_certificate_validation
            (mkHttp 0 true (Some (mkCredentials "FFAA55" None))) = true
       /\ credentials (mkHttp 0 true (Some (mkCredentials "FFAA55" None)))
          = Some (mkCredentials tok None)
       /\ http_id (mkHttp 0 true (Some (mkCredentials "FFAA55" None)))
          = http_built (constructed "acme" (Some "FFAA55") WARNING).
Proof.
  split; [reflexivity|]. split; [reflexivity|].
  apply (session_comes_from_token
           (constructed "acme" (Some "FFAA55") WARNING)
           [CallCheckResponse (mkResponse 500 ∅) "" None None;
            CallAuthorise; CallAuthorise]
           (mkHttp 0 true (Some (mkCredentials "FFAA55" None))));
    reflexivity.
Defined.

(** X5: a gateway that starts without a session builds at most one, however
    many calls are made and whichever of them raise: the count of sessions
    built grows by one when the gateway ends with a session and not at all
    when it ends without. *)
Theorem at_most_one_session_built (st : State) (cs : list Call)
    (Hfresh : http (self st) = None) :
  http_built (run_calls cs st)
  = (http_built st
     + match http (self (run_calls cs st)) with
       | Some _ => 1
       | None => 0
       end)%nat.
Proof.
  destruct (run_calls_fresh cs st Hfresh) as [[Hn Hb]|(tok & _ & Hs & Hb)].
  - rewrite Hn, Hb. lia.
  - rewrite Hs, Hb. lia.
Qed.

Lemma at_most_one_session_built_witness :
  http (self (constructed "acme" (Some "FFAA55") WARNING)) = None
  /\ http_built (run_calls [CallAuthorise; CallAuthorise; CallAuthorise]
                           (constructed "acme" (Some "FFAA55") WARNING))
     = (http_built (constructed "acme" (Some "FFAA55") WARNING)
        + match http (self (run_calls [CallAuthorise; CallAuthorise; CallAuthorise]
                                      (constructed "acme" (Some "FFAA55") WARNING)))
          with
          | Some _ => 1
          | None => 0
          end)%nat.
Proof.
  split; [reflexivity|].
  apply (at_most_one_session_built
           (constructed "acme" (Some "FFAA55") WARNING)
           [CallAuthorise; CallAuthorise; CallAuthorise]).
  reflexivity.
Defined.

(** X6: a gateway without a session whose access token is absent never gets
    a session: after any sequence of calls it still has none and none was
    built. *)
Theorem no_token_no_session (st : State) (cs : list Call)
    (Hfresh : http (self st) = None)
    (Htoken : ACCESS_TOKEN (self st) = None) :
  http (self (run_calls cs st)) = None
  /\ http_built (run_calls cs st) = http_built st.
Proof.
  destruct (run_calls_fresh cs st Hfresh) as [H|(tok & Htok & _)];
    [exact H|congruence].
Qed.

Lemma no_token_no_session_witness :
  http (self (constructed "acme" None WARNING)) = None
  /\ ACCESS_TOKEN (self (constructed "acme" None WARNING)) = None
  /\ http (self (run_calls [CallAuthorise;
                           CallCheckResponse (mkResponse 200 ∅) "" None None;
                           CallAuthorise]
                          (constructed "acme" None WARNING))) = None.
Proof.
  split; [reflexivity|]. split; [reflexivity|].
  apply (no_token_no_session (constructed "acme" None WARNING)
           [CallAuthorise;
            CallCheckResponse (mkResponse 200 ∅) "" None None;
            CallAuthorise]);
    reflexivity.
Defined.

(** X7: no sequence of calls changes an attribute of the gateway other than
    [http]: the access token, the nation slug, the URLs and the request
    headers stay as they were. *)
Theorem calls_change_http_only (cs : list Call) (st : State) :
  self (run_calls cs st) = set_http (http (self (run_calls cs st))) (self st)
  /\ ACCESS_TOKEN (self (run_calls cs st)) = ACCESS_TOKEN (self st)
  /\ BASE_URL (self (run_calls cs st)) = BASE_URL (self st)
  /\ HEADERS (self (run_calls cs st)) = HEADERS (self st).
Proof.
  assert (H : self (run_calls cs st)
              = set_http (http (self (run_calls cs st))) (self st)).
  { revert st. induction cs as [|c cs IH]; intros st; cbn [run_calls].
    - symmetry; apply set_http_same.
    - rewrite (IH (snd (call c st))) at 1.
      rewrite (call_changes_http_only c st). reflexivity. }
  split; [exact H|]. rewrite H. auto.
Qed.

(** X8: [_authorise] prints nothing and logs nothing, whether it returns at
    once, builds the session or fails its assertion. *)
Theorem authorise_is_silent (st : State) :
  stdout (snd (_authorise st)) = stdout st
  /\ log_records (snd (_authorise st)) = log_records st.
Proof.
  destruct (_authorise_output st) as (Ho & Hl & _). auto.
Qed.

(** ** Output over sequences of calls *)

Lemma call_output (c : Call) (st : State) :
  log_level (snd (call c st)) = log_level st
  /\ (exists out : list Printed,
        stdout (snd (call c st)) = (stdout st ++ out)%list
        /\ length out = (3 * error_responses [c])%nat)
  /\ (exists rs : list LogRecord,
        log_records (snd (call c st)) = (log_records st ++ rs)%list
        /\ length rs = if log_level st <=? DEBUG
                       then success_responses [c] else 0%nat).
Proof.
  destruct c as [|hd ct a u]; cbn [call error_responses success_responses].
  - destruct (_authorise_output st) as (Ho & Hl & Hv).
    split; [exact Hv|]. split.
    + exists []. rewrite Ho, app_nil_r. auto.
    + exists []. rewrite Hl, app_nil_r. destruct (log_level st <=? DEBUG); auto.
  - unfold is_error_status.
    destruct (status_range_dec (status hd)) as [Hok|Herr].
    + assert (Hb : (status hd <? 200) || (status hd >? 299) = false).
      { rewrite Z.gtb_ltb.
        destruct (Z.ltb_spec (status hd) 200); [lia|].
        destruct (Z.ltb_spec 299 (status hd)); [lia|reflexivity]. }
      rewrite Hb, (_check_response_2xx hd ct a u Hok), log_debug_eq. cbn [snd].
      destruct (log_level st <=? DEBUG); cbn.
      * split; [reflexivity|]. split; [exists []; rewrite app_nil_r; auto|].
        eexists; split; reflexivity.
      * split; [reflexivity|].
        split; exists []; rewrite app_nil_r; auto.
    + assert (Hb : (status hd <? 200) || (status hd >? 299) = true).
      { rewrite Z.gtb_ltb.
        destruct (Z.ltb_spec (status hd) 200); [reflexivity|].
        destruct (Z.ltb_spec 299 (status hd)); [reflexivity|lia]. }
      rewrite Hb, (_check_response_non2xx hd ct a u Herr), _raise_error_eq.
      cbn [snd]. split; [reflexivity|]. split.
      * exists (diagnostics hd ct u). split; reflexivity.
      * exists []. cbn. rewrite app_nil_r.
        destruct (log_level st <=? DEBUG); auto.
Qed.

(** X9: over any sequence of calls nothing printed or logged is ever taken
    back; the standard output grows by three entries for each
    [_check_response] on a status outside 200..299 and by nothing else, and
    the logger gets one record for each [_check_response] on a status in
    200..299 when it is enabled for [DEBUG] and none at all when it is
    not. *)
Theorem output_of_calls (cs : list Call) (st : State) :
  (exists out : list Printed,
     stdout (run_calls cs st) = (stdout st ++ out)%list
     /\ length out = (3 * error_responses cs)%nat)
  /\ (exists rs : list LogRecord,
        log_records (run_calls cs st) = (log_records st ++ rs)%list
        /\ length rs = if log_level st <=? DEBUG
                       then success_responses cs else 0%nat).
Proof.
  revert st. induction cs as [|c cs IH]; intros st; cbn [run_calls].
  - split; exists []; rewrite app_nil_r; cbn;
      [|destruct (log_level st <=? DEBUG)]; auto.
  - destruct (call_output c st)
      as (Hv & (o1 & Ho1 & Hn1) & (r1 & Hr1 & Hm1)).
    destruct (IH (snd (call c st))) as ((o2 & Ho2 & Hn2) & (r2 & Hr2 & Hm2)).
    rewrite Hv in Hm2.
    assert (He : error_responses (c :: cs)
                 = (error_responses [c] + error_responses cs)%nat)
      by (destruct c; cbn; lia).
    assert (Hs : success_responses (c :: cs)
                 = (success_responses [c] + success_responses cs)%nat)
      by (destruct c; cbn; lia).
    split.
    + exists (o1 ++ o2)%list. rewrite Ho2, Ho1, <- app_assoc.
      split; [reflexivity|]. rewrite length_app, Hn1, Hn2, He. lia.
    + exists (r1 ++ r2)%list. rewrite Hr2, Hr1, <- app_assoc.
      split; [reflexivity|]. rewrite length_app, Hm1, Hm2, Hs.
      destruct (log_level st <=? DEBUG); lia.
Qed.

(** ** Raising and catching *)

(** X10: [_raise_error] has no test of its own: it raises for every status,
    the statuses in 200..299 included, for which the error is the plain
    [NBResponseError]; the class is [NBNotFoundError] at 404,
    [NBBadRequestError] at 400 and [NBResponseError] at every other status,
    and the state changes only by the three printed entries. *)
Theorem raise_error_always_raises (msg : option string) (header : Response)
    (body : string) (url : option string) (st : State) :
  _raise_error msg header body url st
  = (Raise (ResponseError
       (mkResponseError
          (if decide (status header = 404) then NBNotFoundError
           else if decide (status header = 400) then NBBadRequestError
           else NBResponseError) msg url header body)),
     with_stdout (stdout st ++ [ PrintValue (of_optional url);
                                 PrintFormat "Header: %s" (VResponse header);
                                 PrintFormat "Body: %s" (VStr body) ]) st).
Proof. rewrite _raise_error_eq. reflexivity. Qed.

(** X11: handlers for the two subclasses are selective: of the errors
    [_check_response] raises, [except NBNotFoundError] catches those of
    status 404 and no other, [except NBBadRequestError] those of status 400
    and no other; a handler for [Exception] catches them all and a handler
    for [AssertionError] none. *)
Theorem handlers_select_by_status (headers : Response) (content : string)
    (attempted_action url : option string) (st : State)
    (Hstatus : status headers < 200 \/ 299 < status headers) :
  exists x : Exn,
    fst (_check_response headers content attempted_action url st) = Raise x
    /\ (catches NBNotFoundError x = true <-> status headers = 404)
    /\ (catches NBBadRequestError x = true <-> status headers = 400)
    /\ catches Exception x = true
    /\ catches AssertionError x = false.
Proof.
  rewrite (_check_response_non2xx headers content attempted_action url Hstatus).
  rewrite _raise_error_eq. eexists; split; [reflexivity|].
  unfold catches; cbn [class_of cls].
  repeat case_decide; subst; repeat split; intros; try reflexivity;
    try discriminate; try congruence; try lia.
Qed.

Lemma handlers_select_by_status_witness :
  (status (mkResponse 404 ∅) < 200 \/ 299 < status (mkResponse 404 ∅))
  /\ exists x : Exn,
       fst (_check_response (mkResponse 404 ∅) "" (Some "get person") None
              (constructed "acme" (Some "FFAA55") WARNING)) = Raise x
       /\ (catches NBNotFoundError x = true <-> status (mkResponse 404 ∅) = 404)
       /\ (catches NBBadRequestError x = true <-> status (mkResponse 404 ∅) = 400)
       /\ catches Exception x = true
       /\ catches AssertionError x = false.
Proof.
  split; [right; simpl; lia|].
  apply (handlers_select_by_status (mkResponse 404 ∅) "" (Some "get person")
           None (constructed "acme" (Some "FFAA55") WARNING)).
  right; simpl; lia.
Defined.

(** X12: the failure of [_authorise] on an absent access token is not a
    response error: a handler for [NBResponseError] or one of its
    subclasses lets it through, and only a handler for [AssertionError] or
    [Exception] catches it. *)
Theorem assertion_escapes_response_handlers (st : State) (handler : PyClass)
    (Hfresh : http (self st) = None)
    (Htoken : ACCESS_TOKEN (self st) = None) :
  exists x : Exn,
    fst (_authorise st) = Raise x
    /\ (catches handler x = true
        <-> handler = AssertionError \/ handler = Exception).
Proof.
  rewrite (_authorise_no_token st Hfresh Htoken).
  exists AssertionFailure. split; [reflexivity|].
  destruct handler; cbn; split; intros H;
    try discriminate; try reflexivity; auto;
    destruct H as [H|H]; discriminate.
Qed.

Lemma assertion_escapes_response_handlers_witness :
  http (self (constructed "acme" None WARNING)) = None
  /\ ACCESS_TOKEN (self (constructed "acme" None WARNING)) = None
  /\ exists x : Exn,
       fst (_authorise (constructed "acme" None WARNING)) = Raise x
       /\ (catches NBResponseError x = true
           <-> NBResponseError = AssertionError \/ NBResponseError = Exception).
Proof.
  split; [reflexivity|]. split; [reflexivity|].
  apply (assertion_escapes_response_handlers
           (constructed "acme" None WARNING) NBResponseError);
    reflexivity.
Defined.

(** X13: when the logger is enabled for [DEBUG], the record of a response
    with a status in 200..299 always names something: its argument is a
    string and never the empty one, whatever the URL and the description
    are. *)
Theorem success_trace_never_empty (headers : Response) (content : string)
    (attempted_action url : option string) (st : State)
    (Hstatus : 200 <= status headers <= 299)
    (Henabled : log_level st <= DEBUG) :
  exists target : string,
    target <> ""
    /\ log_records (snd (_check_response headers content attempted_action url st))
       = (log_records st
          ++ [mkLogRecord DEBUG "Request to %s successful." (Some target)])%list.
Proof.
  rewrite (_check_response_2xx headers content attempted_action url Hstatus).
  rewrite log_debug_eq. cbn [snd].
  destruct (Z.leb_spec (log_level st) DEBUG) as [_|Hgt]; [|lia]. cbn.
  assert (Hne : forall s : string, String.eqb s "" = false -> s <> "").
  { intros s Hs ->. discriminate. }
  unfold py_or at 1.
  destruct (truthy (py_or url attempted_action)) eqn:Ht.
  - destruct (py_or url attempted_action) as [s|]; [|discriminate].
    exists s. split; [|reflexivity].
    apply Hne. cbn in Ht. destruct (String.eqb s ""); [discriminate|reflexivity].
  - exists "Unknown". split; [discriminate|reflexivity].
Qed.

Lemma success_trace_never_empty_witness :
  200 <= status (mkResponse 201 ∅) <= 299
  /\ log_level (constructed "acme" (Some "FFAA55") DEBUG) <= DEBUG
  /\ exists target : string,
       target <> ""
       /\ log_records
            (snd (_check_response (mkResponse 201 ∅) "" (Some "") (Some "")
                    (constructed "acme" (Some "FFAA55") DEBUG)))
          = (log_records (constructed "acme" (Some "FFAA55") DEBUG)
             ++ [mkLogRecord DEBUG "Request to %s successful." (Some target)])%list.
Proof.
  split; [simpl; lia|]. split; [simpl; unfold DEBUG; lia|].
  apply (success_trace_never_empty (mkResponse 201 ∅) "" (Some "") (Some "")
           (constructed "acme" (Some "FFAA55") DEBUG)).
  - simpl; lia.
  - simpl; unfold DEBUG; lia.
Defined.
